(** * zipline.lines: the SimulatedTrading topology

    A shallow embedding of [src/zipline/lines.py].  The class
    [SimulatedTrading] is stateful Python: every method reads and writes the
    attributes of [self] and calls into collaborators (the address allocator,
    the simulator, the controller, the trading client).  Methods are embedded
    as computations in a state-and-exception monad over the record of
    attributes; an exception leaves the attributes as they were when it was
    raised, as in Python. *)

From Stdlib Require Import ZArith String List Lia.
From stdpp Require Import base option list gmap strings.

Local Open Scope string_scope.

(** ** Exceptions and outcomes *)

(** The exceptions a call into this module can end with.  The first four are
    raised by the Python code of the module itself ([assert], a call with the
    wrong number of arguments, a list index out of range, [raise]); the last
    three are the allocator's own, named as its contract names them. *)
Inductive exn : Type :=
| AssertionError
| TypeError
| IndexError
| ZiplineException
| ExhaustionError
| InvalidRequestError
| NotLeasedError.

#[global] Instance exn_eq_dec : EqDecision exn.
Proof. solve_decision. Defined.

Inductive outcome (T : Type) : Type :=
| Return (v : T)
| Raise (e : exn).
Arguments Return {T} v.
Arguments Raise {T} e.

(** [M S T]: a method body running on attributes [S], ending in a value of
    type [T] or in an exception, and in both cases in a state. *)
Definition M (S T : Type) : Type := S -> outcome T * S.

Definition ret {S T} (v : T) : M S T := fun s => (Return v, s).
Definition raise {S T} (e : exn) : M S T := fun s => (Raise e, s).
Definition bind {S T U} (m : M S T) (k : T -> M S U) : M S U :=
  fun s => match m s with
           | (Return v, s') => k v s'
           | (Raise e, s') => (Raise e, s')
           end.
Definition get {S} : M S S := fun s => (Return s, s).
Definition modify {S} (f : S -> S) : M S unit := fun s => (Return tt, f s).

Declare Scope py_scope.
Delimit Scope py_scope with py.
Notation "x <- m ;; k" := (bind m (fun x => k))
  (at level 20, m at level 99, k at level 200, only parsing) : py_scope.
Notation "m ;; k" := (bind m (fun _ => k))
  (at level 100, k at level 200, right associativity, only parsing) : py_scope.

(** [assert b] *)
Definition assert {S} (b : bool) : M S unit :=
  if b then ret tt else raise AssertionError.

(** [l[i]] on a Python list, for [i >= 0]. *)
Definition index {S T} (l : list T) (i : nat) : M S T :=
  match l !! i with
  | Some x => ret x
  | None => raise IndexError
  end.

(** An outcome is a failure when it is [Raise]. *)
Definition fails {T} (o : outcome T) : Prop := exists e, o = Raise e.

(** ** Values and components *)

(** Bound methods that the module passes around as callbacks. *)
Inductive bound_method : Type :=
| Algorithm_handle_frame
| TradeSimulationClient_order
| SimulatedTrading_shutdown
| Simulator_default_on_done.

(** Python values that the methods of the class return or store. *)
Inductive value : Type :=
| VNone
| VDict (d : gmap string Z)
| VMethod (m : bound_method).

(** The base classes the [isinstance] assertions test for. *)
Inductive capability : Type :=
| DataSource
| BaseTransform
| Client.

#[global] Instance capability_eq_dec : EqDecision capability.
Proof. solve_decision. Defined.

(** A pipeline component: [oid] tells two objects apart (Python's [id]),
    [get_id] is the property the registry is keyed by, [kind] the base class
    seen by [isinstance]. *)
Record Component : Type := {
  oid : nat;
  get_id : string;
  kind : capability
}.

#[global] Instance Component_eq_dec : EqDecision Component.
Proof. solve_decision. Defined.

Definition isinstance (c : Component) (k : capability) : bool :=
  bool_decide (kind c = k).

(** ** class ZiplineException(Exception)

    [def __init__(msg)] declares one positional parameter and no [self]:
    instantiating the class with [n] arguments calls [__init__] with [n + 1],
    which succeeds only for [n = 0]. *)
Definition ZiplineException_new {S} (args : list string) : M S exn :=
  match args with
  | [] => ret ZiplineException
  | _ :: _ => raise TypeError
  end.

(** ** Collaborators

    [zipline.simulator], [zipline.monitor], [zipline.finance.trading] and
    [zipline.finance.performance] are imported by [lines.py]; the module only
    constructs their objects, hands them arguments and reads attributes back.
    Each is modelled as the record of what it was handed. *)

(** Modelled from the spec: the accounting collaborator of the client
    ([zipline.finance.performance], absent from the sources); a period
    answers [to_dict()] and [get_positions()] from recorded data. *)
Record PerformancePeriod : Type := {
  period_to_dict : gmap string Z;
  period_get_positions : gmap string Z
}.

Record PerformanceTracker : Type := {
  cumulative_performance : PerformancePeriod
}.

(** The algorithm protocol: [handle_frame] is read as a bound method,
    [set_order] stores the order method it is given. *)
Record Algorithm : Type := {
  algorithm_name : string;
  algorithm_order : option bound_method
}.

Definition set_order (m : bound_method) (a : Algorithm) : Algorithm :=
  {| algorithm_name := algorithm_name a; algorithm_order := Some m |}.

(** Modelled from the spec: the run context returned by the Pipeline Runtime
    ([Simulator.simulate()], absent from the sources), which exposes
    [join()]. *)
Record RunContext : Type := {
  joined : bool
}.

Definition join (c : RunContext) : RunContext := {| joined := true |}.

Section Topology.

Context {Endpoint TradingEnvironment : Type}.

(** [Controller(sockets[6], sockets[7], logging = qutil.LOGGER)] *)
Record Controller : Type := {
  controller_first : Endpoint;
  controller_second : Endpoint
}.

(** Modelled from the spec: the Pipeline Runtime ([zipline.simulator.Simulator],
    absent from the sources): it holds the role-to-endpoint map it was
    constructed with, the components and the controller registered with it,
    and the attribute [on_done].  What a fresh simulator holds in [on_done],
    before anything is assigned to it, is not in the sources: the constructor
    takes it as an argument. *)
Record Simulator : Type := {
  addresses : gmap string Endpoint;
  components : list Component;
  controller : option Controller;
  on_done : value
}.

Definition Simulator_new (fresh_on_done : value) (addrs : gmap string Endpoint)
  : Simulator :=
  {| addresses := addrs; components := []; controller := None;
     on_done := fresh_on_done |}.

Definition register_components (cs : list Component) (s : Simulator) : Simulator :=
  {| addresses := addresses s; components := components s ++ cs;
     controller := controller s; on_done := on_done s |}.

Definition register_controller (c : Controller) (s : Simulator) : Simulator :=
  {| addresses := addresses s; components := components s;
     controller := Some c; on_done := on_done s |}.

Definition set_on_done (v : value) (s : Simulator) : Simulator :=
  {| addresses := addresses s; components := components s;
     controller := controller s; on_done := v |}.

Definition Simulator_simulate (s : Simulator) : RunContext :=
  {| joined := false |}.

(** [TradeSimulationClient(trading_environment)] *)
Record TradeSimulationClient : Type := {
  client_component : Component;
  client_environment : TradingEnvironment;
  event_callbacks : list bound_method;
  perf : PerformanceTracker
}.

Definition add_event_callback (m : bound_method) (c : TradeSimulationClient)
  : TradeSimulationClient :=
  {| client_component := client_component c;
     client_environment := client_environment c;
     event_callbacks := event_callbacks c ++ [m];
     perf := perf c |}.

(** The three classes of [zipline.finance.trading] that [__init__]
    instantiates, and the [on_done] of a fresh [Simulator].  None of them is
    in the sources; they are taken as given, whatever they are. *)
Record Trading : Type := {
  TradeSimulationClient_new : TradingEnvironment -> TradeSimulationClient;
  OrderDataSource_new : Component;
  TransactionSimulator_new : Component;
  Simulator_fresh_on_done : value
}.

(** The allocator protocol used by the class: [lease(n)] and
    [reaquire] (called with the sockets unpacked), both acting on the allocator's own state. *)
Class Allocator (A : Type) : Type := {
  lease : Z -> A -> outcome (list Endpoint) * A;
  reaquire : list Endpoint -> A -> outcome unit * A
}.

Context {A : Type} `{!Allocator A}.
Variable trading : Trading.

(** ** class SimulatedTrading: attributes

    [allocate_sockets] and [shutdown] read and write two attributes only,
    [allocator] and [leased_sockets]; these two are grouped in [Leasing], so
    that [__init__] can run both methods before the other attributes exist.
    [allocator] is the caller's allocator object, shared with the instance:
    what the instance does to it is visible to the caller there. *)
Record Leasing : Type := {
  allocator : A;
  leased_sockets : list Endpoint
}.

Record SimulatedTrading : Type := {
  leasing : Leasing;
  algorithm : Algorithm;
  trading_environment : TradingEnvironment;
  sim_context : option RunContext;
  con : Controller;
  sim : Simulator;
  clients : gmap string Component;
  trading_client : TradeSimulationClient;
  sources : gmap string Component;
  order_source : Component;
  transaction_sim : Component;
  transforms : gmap string Component;
  started : bool
}.

Definition set_allocator (a : A) (l : Leasing) : Leasing :=
  {| allocator := a; leased_sockets := leased_sockets l |}.

Definition set_leased_sockets (ss : list Endpoint) (l : Leasing) : Leasing :=
  {| allocator := allocator l; leased_sockets := ss |}.

Definition set_leasing (l : Leasing) (self : SimulatedTrading) : SimulatedTrading :=
  {| leasing := l; algorithm := algorithm self;
     trading_environment := trading_environment self;
     sim_context := sim_context self; con := con self; sim := sim self;
     clients := clients self; trading_client := trading_client self;
     sources := sources self; order_source := order_source self;
     transaction_sim := transaction_sim self; transforms := transforms self;
     started := started self |}.

Definition set_sim_context (c : option RunContext) (self : SimulatedTrading)
  : SimulatedTrading :=
  {| leasing := leasing self; algorithm := algorithm self;
     trading_environment := trading_environment self;
     sim_context := c; con := con self; sim := sim self;
     clients := clients self; trading_client := trading_client self;
     sources := sources self; order_source := order_source self;
     transaction_sim := transaction_sim self; transforms := transforms self;
     started := started self |}.

Definition set_sim (s : Simulator) (self : SimulatedTrading) : SimulatedTrading :=
  {| leasing := leasing self; algorithm := algorithm self;
     trading_environment := trading_environment self;
     sim_context := sim_context self; con := con self; sim := s;
     clients := clients self; trading_client := trading_client self;
     sources := sources self; order_source := order_source self;
     transaction_sim := transaction_sim self; transforms := transforms self;
     started := started self |}.

Definition set_sources (m : gmap string Component) (self : SimulatedTrading)
  : SimulatedTrading :=
  {| leasing := leasing self; algorithm := algorithm self;
     trading_environment := trading_environment self;
     sim_context := sim_context self; con := con self; sim := sim self;
     clients := clients self; trading_client := trading_client self;
     sources := m; order_source := order_source self;
     transaction_sim := transaction_sim self; transforms := transforms self;
     started := started self |}.

Definition set_started (b : bool) (self : SimulatedTrading) : SimulatedTrading :=
  {| leasing := leasing self; algorithm := algorithm self;
     trading_environment := trading_environment self;
     sim_context := sim_context self; con := con self; sim := sim self;
     clients := clients self; trading_client := trading_client self;
     sources := sources self; order_source := order_source self;
     transaction_sim := transaction_sim self; transforms := transforms self;
     started := b |}.

Local Open Scope py_scope.

(** A call [self.allocator.f(...)]: the allocator's state moves on, whether
    the call returns or raises. *)
Definition call_allocator {T} (f : A -> outcome T * A) : M Leasing T :=
  fun l => let '(r, a) := f (allocator l) in (r, set_allocator a l).

(** A method of [Leasing] called on a whole instance. *)
Definition on_leasing {T} (m : M Leasing T) : M SimulatedTrading T :=
  fun self => let '(r, l) := m (leasing self) in (r, set_leasing l self).

(** ** Methods *)

(** [allocate_sockets(self, n)], lines 194-206.  [isinstance(n, int)] holds
    of every [n : Z]. *)
Definition allocate_sockets (n : Z) : M Leasing (list Endpoint) :=
  assert true ;;
  assert (bool_decide (n > 0)%Z) ;;
  leased <- call_allocator (lease n) ;;
  modify (fun l => set_leased_sockets (leased_sockets l ++ leased) l) ;;
  ret leased.

(** [shutdown(self)], lines 214-215: no [return], so the call evaluates to
    [None]. *)
Definition shutdown : M Leasing value :=
  l <- get ;;
  call_allocator (reaquire (leased_sockets l)) ;;
  ret VNone.

(** [check_started(self)], lines 186-189.  The message is the string literal
    of the source, with its line continuation. *)
Definition check_started : M SimulatedTrading value :=
  self <- get ;;
  if started self then
    e <- ZiplineException_new
           ["You cannot add sources after the             simulation has begun."] ;;
    raise e
  else ret VNone.

(** [add_source(self, source)], lines 173-177. *)
Definition add_source (source : Component) : M SimulatedTrading value :=
  assert (isinstance source DataSource) ;;
  check_started ;;
  modify (fun self => set_sim (register_components [source] (sim self)) self) ;;
  modify (fun self => set_sources (<[get_id source := source]> (sources self)) self) ;;
  ret VNone.

(** [add_transform(self, transform)], lines 180-184.  Line 184 assigns into
    [self.sources]. *)
Definition add_transform (transform : Component) : M SimulatedTrading value :=
  assert (isinstance transform BaseTransform) ;;
  check_started ;;
  modify (fun self => set_sim (register_components [transform] (sim self)) self) ;;
  modify (fun self => set_sources (<[get_id transform := transform]> (sources self)) self) ;;
  ret VNone.

(** [get_cumulative_performance(self)], lines 191-192: an expression
    statement; its value is dropped and the call evaluates to [None]. *)
Definition get_cumulative_performance : M SimulatedTrading value :=
  self <- get ;;
  let _ := VDict (period_to_dict (cumulative_performance (perf (trading_client self)))) in
  ret VNone.

(** [simulate(self, blocking=False)], lines 208-212. *)
Definition simulate (blocking : bool) : M SimulatedTrading value :=
  modify (set_started true) ;;
  self <- get ;;
  modify (set_sim_context (Some (Simulator_simulate (sim self)))) ;;
  (if blocking
   then modify (fun self => set_sim_context (join <$> sim_context self) self)
   else ret tt) ;;
  ret VNone.

(** [get_positions(self)], lines 221-228. *)
Definition get_positions : M SimulatedTrading value :=
  self <- get ;;
  let perf := cumulative_performance (perf (trading_client self)) in
  let positions := VDict (period_get_positions perf) in
  ret positions.

(** The dict literal of lines 128-135, keys in the order of the source. *)
Definition role_map (s0 s1 s2 s3 s4 s5 : Endpoint) : gmap string Endpoint :=
  <["order_address" := s5]> (<["result_address" := s4]>
  (<["merge_address" := s3]> (<["feed_address" := s2]>
  (<["data_address" := s1]> (<["sync_address" := s0]> ∅))))).

(** [__init__(self, algorithm, trading_environment, allocator)], lines
    112-171.  The attributes other than the two of [Leasing] are written once
    each and not read by [allocate_sockets] or [shutdown]; they are bound by
    [let] in the order of the source and collected in the instance at the end.
    When the body raises, no instance exists; the allocator is the caller's
    and keeps what was done to it. *)
Definition __init__ (algorithm : Algorithm) (trading_environment : TradingEnvironment)
    (allocator : A) : outcome SimulatedTrading * A :=
  let body : M Leasing SimulatedTrading :=
    let sim_context := None in
    sockets <- allocate_sockets 8 ;;
    s0 <- index sockets 0 ;;
    s1 <- index sockets 1 ;;
    s2 <- index sockets 2 ;;
    s3 <- index sockets 3 ;;
    s4 <- index sockets 4 ;;
    s5 <- index sockets 5 ;;
    let addresses := role_map s0 s1 s2 s3 s4 s5 in
    s6 <- index sockets 6 ;;
    s7 <- index sockets 7 ;;
    let con := {| controller_first := s6; controller_second := s7 |} in
    let sim := Simulator_new (Simulator_fresh_on_done trading) addresses in
    let clients : gmap string Component := ∅ in
    let trading_client := TradeSimulationClient_new trading trading_environment in
    let clients :=
      <[get_id (client_component trading_client) := client_component trading_client]>
        clients in
    let sources : gmap string Component := ∅ in
    let order_source := OrderDataSource_new trading in
    let sources := <[get_id order_source := order_source]> sources in
    let transaction_sim := TransactionSimulator_new trading in
    let transforms : gmap string Component := ∅ in
    let transforms := <[get_id transaction_sim := transaction_sim]> transforms in
    let sim :=
      register_components
        [client_component trading_client; order_source; transaction_sim] sim in
    let sim := register_controller con sim in
    done_handler <- shutdown ;;
    let sim := set_on_done done_handler sim in
    let started := false in
    let trading_client := add_event_callback Algorithm_handle_frame trading_client in
    let algorithm := set_order TradeSimulationClient_order algorithm in
    l <- get ;;
    ret {| leasing := l; algorithm := algorithm;
           trading_environment := trading_environment;
           sim_context := sim_context; con := con; sim := sim;
           clients := clients; trading_client := trading_client;
           sources := sources; order_source := order_source;
           transaction_sim := transaction_sim; transforms := transforms;
           started := started |} in
  let '(r, l) := body {| allocator := allocator; leased_sockets := [] |} in
  (r, Topology.allocator l).

End Topology.

Arguments Controller : clear implicits.
Arguments Simulator : clear implicits.
Arguments TradeSimulationClient : clear implicits.
Arguments Trading : clear implicits.
Arguments Allocator : clear implicits.
Arguments Leasing : clear implicits.
Arguments SimulatedTrading : clear implicits.

(** ** Allocators *)

(** Modelled from the spec: the Endpoint Allocator
    ([zipline.simulator.AddressAllocator], absent from the sources).
    [lease(n)] returns exactly [n] previously-unleased endpoints, fails with
    [ExhaustionError] if fewer than [n] remain in the pool and with
    [InvalidRequestError] if [n <= 0]; reclaiming returns the given endpoints
    to the pool and fails with [NotLeasedError] if any of them is not
    currently leased. *)
Record Pool (E : Type) : Type := {
  pool_free : list E;
  pool_leased : list E
}.
Arguments pool_free {E} p.
Arguments pool_leased {E} p.

Section PoolAllocator.

Context {E : Type} `{!EqDecision E}.

Definition pool_lease (n : Z) (p : Pool E) : outcome (list E) * Pool E :=
  if bool_decide (n <= 0)%Z then (Raise InvalidRequestError, p)
  else if bool_decide (Z.to_nat n <= length (pool_free p))%nat then
    (Return (take (Z.to_nat n) (pool_free p)),
     {| pool_free := drop (Z.to_nat n) (pool_free p);
        pool_leased := pool_leased p ++ take (Z.to_nat n) (pool_free p) |})
  else (Raise ExhaustionError, p).

Definition pool_reclaim (es : list E) (p : Pool E) : outcome unit * Pool E :=
  if forallb (fun e => bool_decide (e ∈ pool_leased p)) es then
    (Return tt,
     {| pool_free := pool_free p ++ es;
        pool_leased := list_difference (pool_leased p) es |})
  else (Raise NotLeasedError, p).

#[export] Instance pool_allocator : Allocator E (Pool E) :=
  {| lease := pool_lease; reaquire := pool_reclaim |}.

End PoolAllocator.

(** A spy around an allocator, as a test double: it forwards every call and
    keeps the list of the calls it received, in order. *)
Inductive allocator_call (E : Type) : Type :=
| Lease (n : Z)
| Reaquire (es : list E).
Arguments Lease {E} n.
Arguments Reaquire {E} es.

Record Spy (E A : Type) : Type := {
  spied : A;
  calls : list (allocator_call E)
}.
Arguments spied {E A} s.
Arguments calls {E A} s.

Section SpyAllocator.

Context {E A : Type} `{!Allocator E A}.

Definition spy_lease (n : Z) (s : Spy E A) : outcome (list E) * Spy E A :=
  let '(r, a) := lease n (spied s) in
  (r, {| spied := a; calls := calls s ++ [Lease n] |}).

Definition spy_reaquire (es : list E) (s : Spy E A) : outcome unit * Spy E A :=
  let '(r, a) := reaquire es (spied s) in
  (r, {| spied := a; calls := calls s ++ [Reaquire es] |}).

#[export] Instance spy_allocator : Allocator E (Spy E A) :=
  {| lease := spy_lease; reaquire := spy_reaquire |}.

(** The endpoint lists the spied allocator was asked to take back, one per
    [reaquire] call, in order. *)
Definition reclaimed (s : Spy E A) : list (list E) :=
  omap (fun c => match c with Reaquire es => Some es | Lease _ => None end)
       (calls s).

End SpyAllocator.

(** A stub, as a mock object configured with return values: both methods
    answer what the stub was set up with, whatever they are called with. *)
Record Stub (E : Type) : Type := {
  lease_result : outcome (list E);
  reaquire_result : outcome unit
}.
Arguments lease_result {E} s.
Arguments reaquire_result {E} s.

#[export] Instance stub_allocator {E : Type} : Allocator E (Stub E) :=
  {| lease := fun _ s => (lease_result s, s);
     reaquire := fun _ s => (reaquire_result s, s) |}.

(** An allocator that keeps a free list and nothing else: [lease(n)] takes
    the first [n] endpoints off the list, and [reaquire] puts whatever it is
    handed at the end of the list, without asking whether it was leased. *)
Record FreeList (E : Type) : Type := {
  free_list : list E
}.
Arguments free_list {E} f.

Definition free_list_lease {E : Type} (n : Z) (f : FreeList E)
  : outcome (list E) * FreeList E :=
  if bool_decide (Z.to_nat n <= length (free_list f))%nat then
    (Return (take (Z.to_nat n) (free_list f)),
     {| free_list := drop (Z.to_nat n) (free_list f) |})
  else (Raise ExhaustionError, f).

Definition free_list_reaquire {E : Type} (es : list E) (f : FreeList E)
  : outcome unit * FreeList E :=
  (Return tt, {| free_list := (free_list f ++ es)%list |}).

#[export] Instance free_list_allocator {E : Type} : Allocator E (FreeList E) :=
  {| lease := free_list_lease; reaquire := free_list_reaquire |}.

(** ** Sequences of calls

    What a caller can do with an instance: any of the public methods, in any
    order.  [perform] is the instance after one call, whether the call
    returned or raised. *)
Inductive call : Type :=
| Call_add_source (source : Component)
| Call_add_transform (transform : Component)
| Call_check_started
| Call_get_cumulative_performance
| Call_allocate_sockets (n : Z)
| Call_simulate (blocking : bool)
| Call_shutdown
| Call_get_positions.

Definition is_simulate (c : call) : bool :=
  match c with Call_simulate _ => true | _ => false end.

Definition calls_allocator (c : call) : bool :=
  match c with Call_allocate_sockets _ | Call_shutdown => true | _ => false end.

Section Calls.

Context {Endpoint TradingEnvironment A : Type} `{!Allocator Endpoint A}.

Definition perform (c : call)
    (self : SimulatedTrading Endpoint TradingEnvironment A)
  : SimulatedTrading Endpoint TradingEnvironment A :=
  match c with
  | Call_add_source source => (add_source source self).2
  | Call_add_transform transform => (add_transform transform self).2
  | Call_check_started => (check_started self).2
  | Call_get_cumulative_performance => (get_cumulative_performance self).2
  | Call_allocate_sockets n => (on_leasing (allocate_sockets n) self).2
  | Call_simulate blocking => (simulate blocking self).2
  | Call_shutdown => (on_leasing shutdown self).2
  | Call_get_positions => (get_positions self).2
  end.

Definition perform_all (cs : list call)
    (self : SimulatedTrading Endpoint TradingEnvironment A)
  : SimulatedTrading Endpoint TradingEnvironment A :=
  fold_left (fun s c => perform c s) cs self.

(** The attributes that [__init__] writes and no other method assigns. *)
Definition fixed_attributes (self : SimulatedTrading Endpoint TradingEnvironment A) :=
  (addresses (sim self), controller (sim self), on_done (sim self), con self,
   clients self, transforms self, trading_client self, algorithm self,
   trading_environment self, order_source self, transaction_sim self).

(** [k] calls of [shutdown()] in succession. *)
Definition shutdown_times (k : nat) (l : Leasing Endpoint A) : Leasing Endpoint A :=
  Nat.iter k (fun l' => (shutdown l').2) l.

End Calls.

(** ** A concrete world

    Endpoints are port numbers, the trading environment is a name; the three
    fixed components carry their class names as identities. *)
Module Fixture.

Definition period : PerformancePeriod :=
  {| period_to_dict := {[ "returns" := 0%Z ]};
     period_get_positions := {[ "AAPL" := 100%Z ]} |}.

Definition trading : Trading string :=
  {| TradeSimulationClient_new env :=
       {| client_component :=
            {| oid := 1; get_id := "TradeSimulationClient"; kind := Client |};
          client_environment := env;
          event_callbacks := [];
          perf := {| cumulative_performance := period |} |};
     OrderDataSource_new :=
       {| oid := 2; get_id := "OrderDataSource"; kind := DataSource |};
     TransactionSimulator_new :=
       {| oid := 3; get_id := "TransactionSimulator"; kind := BaseTransform |};
     Simulator_fresh_on_done := VMethod Simulator_default_on_done |}.

Definition algo : Algorithm :=
  {| algorithm_name := "TestAlgorithm"; algorithm_order := None |}.

(** An allocator holding exactly the eight endpoints 10000 .. 10007. *)
Definition ports : list N :=
  [10000; 10001; 10002; 10003; 10004; 10005; 10006; 10007]%N.

Definition pool8 : Pool N := {| pool_free := ports; pool_leased := [] |}.

Definition spied_pool8 : Spy N (Pool N) := {| spied := pool8; calls := [] |}.

(** [SimulatedTrading(algo, "env", allocator)] on the spied pool. *)
Definition built
  : outcome (SimulatedTrading N string (Spy N (Pool N))) * Spy N (Pool N) :=
  __init__ trading algo "env" spied_pool8.

Definition from_return {T : Type} (o : outcome T)
  : match o return Type with Return _ => T | Raise _ => unit end :=
  match o with Return v => v | Raise _ => tt end.

(** The instance that construction returns. *)
Definition topo : SimulatedTrading N string (Spy N (Pool N)) :=
  from_return built.1.

(** The same instance after [simulate(False)]. *)
Definition running : SimulatedTrading N string (Spy N (Pool N)) :=
  (simulate false topo).2.

(** The two attributes of [Leasing] as they are inside [__init__] between
    line 127 and line 167: eight sockets leased, none given back. *)
Definition held : Leasing N (Spy N (Pool N)) :=
  (allocate_sockets 8 {| allocator := spied_pool8; leased_sockets := [] |}).2.




(** A pool one endpoint short of what construction asks for. *)
Definition pool7 : Pool N :=
  {| pool_free := [10000; 10001; 10002; 10003; 10004; 10005; 10006]%N;
     pool_leased := [] |}.

(** A stub that answers [lease] with three endpoints only. *)
Definition short_stub : Spy N (Stub N) :=
  {| spied := {| lease_result := Return [10000; 10001; 10002]%N;
                 reaquire_result := Return tt |};
     calls := [] |}.

(** A stub that hands out the eight ports and refuses to take them back. *)
Definition refusing_stub : Spy N (Stub N) :=
  {| spied := {| lease_result := Return ports;
                 reaquire_result := Raise NotLeasedError |};
     calls := [] |}.

(** A stub that hands out ten endpoints when asked for eight. *)
Definition generous_stub : Spy N (Stub N) :=
  {| spied := {| lease_result := Return (ports ++ [10008; 10009]%N)%list;
                 reaquire_result := Return tt |};
     calls := [] |}.

(** A component that is neither a source nor a transform, and a source with
    an identity of its own. *)
Definition bystander : Component :=
  {| oid := 30; get_id := "bystander"; kind := Client |}.
Definition quotes : Component :=
  {| oid := 12; get_id := "quotes"; kind := DataSource |}.

(** Two data sources with one identity, and a transform. *)
Definition feed1 : Component :=
  {| oid := 10; get_id := "feed"; kind := DataSource |}.
Definition feed2 : Component :=
  {| oid := 11; get_id := "feed"; kind := DataSource |}.
Definition moving_average : Component :=
  {| oid := 20; get_id := "MovingAverage"; kind := BaseTransform |}.

End Fixture.

(** ** What the methods compute *)

Section Methods.

Context {Endpoint TradingEnvironment A : Type} `{!Allocator Endpoint A}.
Variable trading : Trading TradingEnvironment.

Abbreviation Instance := (SimulatedTrading Endpoint TradingEnvironment A).

(** [shutdown] is one [reaquire] call on the whole list of leased sockets;
    the list itself is not touched. *)
Lemma shutdown_unfold (l : Leasing Endpoint A) :
  shutdown l =
  match reaquire (leased_sockets l) (allocator l) with
  | (Return _, a) => (Return VNone, set_allocator a l)
  | (Raise e, a) => (Raise e, set_allocator a l)
  end.
Proof.
  unfold shutdown, bind, get, call_allocator, ret.
  destruct (reaquire (leased_sockets l) (allocator l)) as [[u|e] a]; reflexivity.
Qed.

Lemma allocate_sockets_unfold (n : Z) (l : Leasing Endpoint A) :
  (n > 0)%Z ->
  allocate_sockets n l =
  match lease n (allocator l) with
  | (Return leased, a) =>
      (Return leased,
       {| allocator := a; leased_sockets := leased_sockets l ++ leased |})
  | (Raise e, a) => (Raise e, set_allocator a l)
  end.
Proof.
  intros Hn. unfold allocate_sockets, bind, assert, call_allocator, modify, ret.
  rewrite bool_decide_true by exact Hn.
  destruct (lease n (allocator l)) as [[leased|e] a]; reflexivity.
Qed.

Lemma allocate_sockets_nonpositive (n : Z) (l : Leasing Endpoint A) :
  (n <= 0)%Z -> allocate_sockets n l = (Raise AssertionError, l).
Proof.
  intros Hn. unfold allocate_sockets, bind, assert, ret, raise.
  rewrite bool_decide_false by lia. reflexivity.
Qed.

(** Every successful construction went through the same steps: one
    [lease(8)] that returned at least eight sockets, and one [reaquire] of
    all the leased sockets (line 167) that returned. *)
Lemma init_returns algo env (a a' : A) (topo : Instance) :
  __init__ trading algo env a = (Return topo, a') ->
  exists s0 s1 s2 s3 s4 s5 s6 s7 rest a1,
    let sockets := s0 :: s1 :: s2 :: s3 :: s4 :: s5 :: s6 :: s7 :: rest in
    lease 8 a = (Return sockets, a1) /\
    reaquire sockets a1 = (Return tt, a') /\
    leasing topo = {| allocator := a'; leased_sockets := sockets |} /\
    addresses (sim topo) = role_map s0 s1 s2 s3 s4 s5 /\
    con topo = {| controller_first := s6; controller_second := s7 |} /\
    controller (sim topo) = Some (con topo) /\
    on_done (sim topo) = VNone /\
    started topo = false.
Proof.
  unfold __init__, bind. rewrite allocate_sockets_unfold by lia. simpl.
  destruct (lease 8 a) as [[sockets|e] a1]; [|discriminate].
  do 8 (destruct sockets as [|? sockets]; [discriminate|]).
  simpl. rewrite shutdown_unfold. simpl.
  destruct (reaquire _ a1) as [[[]|err] a2] eqn:Hre; [|discriminate].
  simpl. intros [= <- <-].
  do 10 eexists. simpl. repeat split; try reflexivity. exact Hre.
Qed.

(** Conversely these two calls returning is all that construction needs. *)
Lemma init_ok algo env (a a1 a2 : A) s0 s1 s2 s3 s4 s5 s6 s7 rest :
  let sockets := s0 :: s1 :: s2 :: s3 :: s4 :: s5 :: s6 :: s7 :: rest in
  lease 8 a = (Return sockets, a1) ->
  reaquire sockets a1 = (Return tt, a2) ->
  exists topo : Instance, __init__ trading algo env a = (Return topo, a2).
Proof.
  intros sockets Hlease Hre. subst sockets.
  unfold __init__, bind. rewrite allocate_sockets_unfold by lia. simpl.
  rewrite Hlease. simpl. rewrite shutdown_unfold. simpl. rewrite Hre.
  simpl. eexists. reflexivity.
Qed.

End Methods.

(** ** Registration, run and the accessors *)

Section Lifecycle.

Context {Endpoint TradingEnvironment A : Type} `{!Allocator Endpoint A}.

Abbreviation Topo := (SimulatedTrading Endpoint TradingEnvironment A).

Lemma check_started_building (self : Topo) :
  started self = false -> check_started self = (Return VNone, self).
Proof. intros H. unfold check_started, bind, get. rewrite H. reflexivity. Qed.

(** Once [started] is set, [check_started] reaches its [raise] statement;
    instantiating [ZiplineException] with the message fails there. *)
Lemma check_started_running (self : Topo) :
  started self = true -> check_started self = (Raise TypeError, self).
Proof. intros H. unfold check_started, bind, get. rewrite H. reflexivity. Qed.

Lemma add_source_building (self : Topo) (source : Component) :
  started self = false ->
  isinstance source DataSource = true ->
  add_source source self =
    (Return VNone,
     set_sources (<[get_id source := source]> (sources self))
       (set_sim (register_components [source] (sim self)) self)).
Proof.
  intros Hs Hk. unfold add_source, bind, assert. rewrite Hk. simpl.
  rewrite check_started_building by exact Hs. reflexivity.
Qed.

Lemma add_transform_building (self : Topo) (transform : Component) :
  started self = false ->
  isinstance transform BaseTransform = true ->
  add_transform transform self =
    (Return VNone,
     set_sources (<[get_id transform := transform]> (sources self))
       (set_sim (register_components [transform] (sim self)) self)).
Proof.
  intros Hs Hk. unfold add_transform, bind, assert. rewrite Hk. simpl.
  rewrite check_started_building by exact Hs. reflexivity.
Qed.

Lemma simulate_unfold (blocking : bool) (self : Topo) :
  simulate blocking self =
    (Return VNone,
     set_sim_context (Some {| joined := blocking |}) (set_started true self)).
Proof. destruct blocking; reflexivity. Qed.

(** No method clears [started]: an instance on which [simulate] was called
    stays started through every later call. *)
Lemma started_stable (self : Topo) :
  started self = true ->
  (forall c, started (add_source c self).2 = true) /\
  (forall c, started (add_transform c self).2 = true) /\
  (forall b, started (simulate b self).2 = true) /\
  started (on_leasing shutdown self).2 = true /\
  started (get_positions self).2 = true /\
  started (get_cumulative_performance self).2 = true.
Proof.
  intros H. repeat split; intros.
  - unfold add_source, bind, assert.
    destruct (isinstance c DataSource); simpl; [|exact H].
    rewrite check_started_running by exact H. exact H.
  - unfold add_transform, bind, assert.
    destruct (isinstance c BaseTransform); simpl; [|exact H].
    rewrite check_started_running by exact H. exact H.
  - rewrite simulate_unfold. reflexivity.
  - unfold on_leasing. destruct (shutdown (leasing self)). exact H.
  - exact H.
  - exact H.
Qed.

End Lifecycle.

(** ** Properties of every instance *)

Section Claims.

Context {Endpoint TradingEnvironment A : Type} `{!Allocator Endpoint A}.
Variable trading : Trading TradingEnvironment.

Abbreviation Self := (SimulatedTrading Endpoint TradingEnvironment A).


(** C3, as the code has it: on a started instance [add_source] and
    [add_transform] applied to a component of the right class fail before
    anything is registered, and leave every attribute as it was; the exception
    that reaches the caller is the [TypeError] of instantiating
    [ZiplineException] with a message. *)
Theorem registration_after_run_raises_TypeError (self : Self) (c : Component) :
  started self = true ->
  (isinstance c DataSource = true -> add_source c self = (Raise TypeError, self)) /\
  (isinstance c BaseTransform = true -> add_transform c self = (Raise TypeError, self)).
Proof.
  intros Hs. split; intros Hk.
  - unfold add_source, bind, assert. rewrite Hk. simpl.
    rewrite check_started_running by exact Hs. reflexivity.
  - unfold add_transform, bind, assert. rewrite Hk. simpl.
    rewrite check_started_running by exact Hs. reflexivity.
Qed.

(** C4, as the code has it: before [simulate], registering a component
    succeeds whether or not its identity is already registered -- there is no
    duplicate check -- and after [add_source] the sources mapping has the
    newly registered source under that identity. *)
Theorem registration_overwrites_same_identity (self : Self) (c : Component) :
  started self = false ->
  (isinstance c DataSource = true ->
   exists self', add_source c self = (Return VNone, self') /\
                 sources self' = <[get_id c := c]> (sources self) /\
                 sources self' !! get_id c = Some c) /\
  (isinstance c BaseTransform = true ->
   exists self', add_transform c self = (Return VNone, self')).
Proof.
  intros Hs. split; intros Hk.
  - eexists. split; [apply add_source_building; assumption|].
    simpl. split; [reflexivity|]. apply lookup_insert_eq.
  - eexists. apply add_transform_building; assumption.
Qed.

(** C6, as the code has it: [simulate] never looks at [started]; every call,
    the first and any later one, sets [started], takes a fresh run context
    from the simulator (joined when [blocking]) and returns. *)
Theorem simulate_always_starts (self : Self) (blocking : bool) :
  exists self',
    simulate blocking self = (Return VNone, self') /\
    started self' = true /\
    sim_context self' = Some {| joined := blocking |}.
Proof.
  eexists. split; [apply simulate_unfold|]. split; reflexivity.
Qed.

(** C7: when the allocator answers [lease(8)] with eight pairwise distinct
    endpoints (and takes them back at line 167), construction returns an
    instance that holds exactly these eight as leased, binds the six roles to
    the first six, which are pairwise distinct, and gives the controller the
    other two. *)
Theorem construction_binds_roles algo env (a a1 a2 : A) (sockets : list Endpoint) :
  lease 8 a = (Return sockets, a1) ->
  length sockets = 8%nat ->
  NoDup sockets ->
  reaquire sockets a1 = (Return tt, a2) ->
  exists (topo : Self) s0 s1 s2 s3 s4 s5 s6 s7,
    __init__ trading algo env a = (Return topo, a2) /\
    sockets = [s0; s1; s2; s3; s4; s5; s6; s7] /\
    leased_sockets (leasing topo) = sockets /\
    addresses (sim topo) !! "sync_address" = Some s0 /\
    addresses (sim topo) !! "data_address" = Some s1 /\
    addresses (sim topo) !! "feed_address" = Some s2 /\
    addresses (sim topo) !! "merge_address" = Some s3 /\
    addresses (sim topo) !! "result_address" = Some s4 /\
    addresses (sim topo) !! "order_address" = Some s5 /\
    size (addresses (sim topo)) = 6%nat /\
    NoDup [s0; s1; s2; s3; s4; s5] /\
    con topo = {| controller_first := s6; controller_second := s7 |} /\
    controller (sim topo) = Some (con topo) /\
    s6 <> s7 /\ (s6 ∉ [s0; s1; s2; s3; s4; s5]) /\ (s7 ∉ [s0; s1; s2; s3; s4; s5]).
Proof.
  intros Hlease Hlen Hnd Hre.
  do 8 (destruct sockets as [|? sockets]; [discriminate|]).
  destruct sockets; [|discriminate]. clear Hlen.
  destruct (init_ok trading algo env a a1 a2 _ _ _ _ _ _ _ _ _ Hlease Hre)
    as [topo Hinit].
  destruct (init_returns trading algo env a a2 topo Hinit)
    as (s0 & s1 & s2 & s3 & s4 & s5 & s6 & s7 & rest & a1' & H).
  simpl in H. destruct H as (Hl & _ & Hleasing & Haddr & Hcon & Hctl & _ & _).
  rewrite Hlease in Hl. injection Hl as -> -> -> -> -> -> -> -> <- <-.
  exists topo, s0, s1, s2, s3, s4, s5, s6, s7.
  rewrite Haddr, Hleasing. unfold role_map.
  repeat (split; [first [assumption | reflexivity ]|]).
  change (NoDup ([s0; s1; s2; s3; s4; s5] ++ [s6; s7])) in Hnd.
  apply NoDup_app in Hnd as (Hsix & Hsep & Htwo).
  apply NoDup_cons in Htwo as (Hne & _).
  repeat split; try assumption.
  - intros ->. apply Hne. left.
  - intros Hin. apply (Hsep _ Hin). left.
  - intros Hin. apply (Hsep _ Hin). right. left.
Qed.

(** C8, as the code has it: the accessors never look at [started] and raise
    nothing of their own; in every state [get_positions] returns the
    positions recorded by the client's cumulative performance period, and
    [get_cumulative_performance] returns too. *)
Theorem accessors_ignore_started (self : Self) :
  get_positions self =
    (Return (VDict (period_get_positions
                      (cumulative_performance (perf (trading_client self))))),
     self) /\
  ~ fails (get_positions self).1 /\
  ~ fails (get_cumulative_performance self).1.
Proof.
  split; [reflexivity|]. split; intros [e He]; discriminate He.
Qed.

(** C9: on every instance that construction returns, the simulator's
    [on_done] attribute is [None], the value of the [shutdown()] call of line
    167, and not a handler -- whatever the fresh simulator held in [on_done]
    before the assignment. *)
Theorem on_done_is_None_after_construction algo env (a a' : A) (topo : Self) :
  __init__ trading algo env a = (Return topo, a') ->
  on_done (sim topo) = VNone /\
  on_done (sim topo) <> VMethod SimulatedTrading_shutdown.
Proof.
  intros Hinit.
  destruct (init_returns trading algo env a a' topo Hinit)
    as (s0 & s1 & s2 & s3 & s4 & s5 & s6 & s7 & rest & a1 & H).
  simpl in H. destruct H as (_ & _ & _ & _ & _ & _ & Hdone & _).
  rewrite Hdone. split; [reflexivity|discriminate].
Qed.

(** C10: on every instance and whatever [started] is,
    [get_cumulative_performance] returns [None] and changes nothing; the
    dictionary of the client's cumulative performance is not what comes
    back. *)
Theorem get_cumulative_performance_returns_None (self : Self) :
  get_cumulative_performance self = (Return VNone, self) /\
  (get_cumulative_performance self).1 <>
    Return (VDict (period_to_dict
                     (cumulative_performance (perf (trading_client self))))).
Proof. split; [reflexivity|discriminate]. Qed.

End Claims.

(** ** The concrete world, evaluated *)

Import Fixture.

Lemma built_returns :
  built =
  (Return topo,
   {| spied := {| pool_free := ports; pool_leased := [] |};
      calls := [Lease 8; Reaquire ports] |}).
Proof. vm_compute. reflexivity. Qed.

Lemma topo_building : started topo = false.
Proof. reflexivity. Qed.

(** On the allocator of the contract, which checks what it is handed, a
    repeated [shutdown()] repeats the request and is turned away with
    [NotLeasedError]. *)
Lemma shutdown_rejected_by_pool :
  reclaimed (allocator (leasing topo)) = [ports] /\
  (exists t1,
     on_leasing shutdown topo = (Raise NotLeasedError, t1) /\
     reclaimed (allocator (leasing t1)) = [ports; ports]) /\
  (exists l1 l2,
     shutdown held = (Return VNone, l1) /\
     shutdown l1 = (Raise NotLeasedError, l2) /\
     reclaimed (allocator l2) = [ports; ports]).
Proof.
  split; [vm_compute; reflexivity|]. split.
  - eexists. repeat split; vm_compute; reflexivity.
  - eexists _, _. repeat split; vm_compute; reflexivity.
Qed.


(** C2 fails on the code: construction on a pool of eight endpoints returns
    an instance that still lists the eight as leased, while the allocator has
    already been asked to take all of them back (line 167 calls
    [shutdown()]) and holds all eight as free again, none as leased. *)
Theorem construction_reclaims_leased_endpoints :
  exists topo' a,
    __init__ trading algo "env" spied_pool8 = (Return topo', a) /\
    leased_sockets (leasing topo') = ports /\
    calls a = [Lease 8; Reaquire ports] /\
    pool_free (spied a) = ports /\
    pool_leased (spied a) = [].
Proof. eexists _, _. repeat split; vm_compute; reflexivity. Qed.

(** C4 fails on the code: a second source registered under the identity of a
    first one is accepted, and the sources mapping then holds the second. *)
Lemma duplicate_source_replaces_first :
  get_id feed2 = get_id feed1 /\ feed2 <> feed1 /\
  exists t1 t2,
    add_source feed1 topo = (Return VNone, t1) /\
    sources t1 !! "feed" = Some feed1 /\
    add_source feed2 t1 = (Return VNone, t2) /\
    sources t2 !! "feed" = Some feed2.
Proof.
  split; [reflexivity|]. split; [discriminate|].
  eexists _, _. repeat split; vm_compute; reflexivity.
Qed.

(** C5 fails on the code: [add_transform] on a fresh instance puts the
    transform into the sources mapping; the transforms mapping is what it was
    and has nothing under the transform's identity. *)
Theorem add_transform_stores_in_sources :
  started topo = false /\ isinstance moving_average BaseTransform = true /\
  exists t1,
    add_transform moving_average topo = (Return VNone, t1) /\
    transforms t1 = transforms topo /\
    transforms t1 !! "MovingAverage" = None /\
    sources topo !! "MovingAverage" = None /\
    sources t1 !! "MovingAverage" = Some moving_average.
Proof.
  split; [reflexivity|]. split; [reflexivity|].
  eexists. repeat split; vm_compute; reflexivity.
Qed.

(** C6 fails on the code: a second [simulate] on a started instance
    returns. *)
Lemma second_run_succeeds :
  exists t1 t2,
    simulate false topo = (Return VNone, t1) /\
    started t1 = true /\
    simulate false t1 = (Return VNone, t2) /\
    ~ fails (simulate false t1).1.
Proof.
  eexists _, _. split; [vm_compute; reflexivity|].
  split; [reflexivity|]. split; [vm_compute; reflexivity|].
  intros [e He]. vm_compute in He. discriminate He.
Qed.

(** C8 fails on the code: on a fresh instance, before any [simulate], both
    accessors return. *)
Lemma accessors_before_run_return :
  started topo = false /\
  get_positions topo = (Return (VDict {[ "AAPL" := 100%Z ]}), topo) /\
  get_cumulative_performance topo = (Return VNone, topo).
Proof. repeat split; vm_compute; reflexivity. Qed.

(** The instance after [simulate(False)]: registration of a source and of a
    transform both end in [TypeError] and change nothing. *)
Lemma registration_after_run_witness :
  started running = true /\
  add_source feed1 running = (Raise TypeError, running) /\
  add_transform moving_average running = (Raise TypeError, running).
Proof.
  assert (Hs : started running = true) by reflexivity.
  split; [exact Hs|]. split.
  - apply (registration_after_run_raises_TypeError running feed1 Hs). reflexivity.
  - apply (registration_after_run_raises_TypeError running moving_average Hs).
    reflexivity.
Defined.

(** The fresh instance with [feed1] registered: registering [feed2], of the
    same identity, returns and [feed2] is what the mapping holds. *)
Lemma registration_overwrites_witness :
  started (add_source feed1 topo).2 = false /\
  exists self',
    add_source feed2 (add_source feed1 topo).2 = (Return VNone, self') /\
    sources self' = <[get_id feed2 := feed2]> (sources (add_source feed1 topo).2) /\
    sources self' !! get_id feed2 = Some feed2.
Proof.
  assert (Hs : started (add_source feed1 topo).2 = false) by reflexivity.
  split; [exact Hs|].
  apply (registration_overwrites_same_identity (add_source feed1 topo).2 feed2 Hs).
  reflexivity.
Defined.

(** The pool of eight ports: the roles are bound to 10000 .. 10005 and the
    controller gets 10006 and 10007. *)
Lemma construction_binds_roles_witness :
  exists topo',
    __init__ trading algo "env" pool8
      = (Return topo', {| pool_free := ports; pool_leased := [] |}) /\
    leased_sockets (leasing topo') = ports /\
    addresses (sim topo') !! "sync_address" = Some 10000%N /\
    addresses (sim topo') !! "order_address" = Some 10005%N /\
    con topo' = {| controller_first := 10006%N; controller_second := 10007%N |}.
Proof.
  assert (Hlease : lease 8 pool8
                   = (Return ports, {| pool_free := []; pool_leased := ports |}))
    by reflexivity.
  assert (Hlen : length ports = 8%nat) by reflexivity.
  assert (Hnd : NoDup ports)
    by (apply (bool_decide_unpack _); vm_compute; exact I).
  assert (Hre : reaquire ports {| pool_free := []; pool_leased := ports |}
                = (Return tt, {| pool_free := ports; pool_leased := [] |}))
    by reflexivity.
  destruct (construction_binds_roles trading algo "env" pool8 _ _ ports
              Hlease Hlen Hnd Hre)
    as (topo' & s0 & s1 & s2 & s3 & s4 & s5 & s6 & s7 & Hinit & Hs & Hleased
        & H0 & _ & _ & _ & _ & H5 & _ & _ & Hcon & _).
  injection Hs as <- <- <- <- <- <- <- <-.
  exists topo'. repeat split; assumption.
Defined.

(** The instance built on the spied pool has [on_done = None], although its
    simulator came with a handler in [on_done]. *)
Lemma on_done_is_None_witness :
  Simulator_fresh_on_done trading = VMethod Simulator_default_on_done /\
  __init__ trading algo "env" spied_pool8
    = (Return topo,
       {| spied := {| pool_free := ports; pool_leased := [] |};
          calls := [Lease 8; Reaquire ports] |}) /\
  on_done (sim topo) = VNone.
Proof.
  assert (Hinit : __init__ trading algo "env" spied_pool8
                  = (Return topo,
                     {| spied := {| pool_free := ports; pool_leased := [] |};
                        calls := [Lease 8; Reaquire ports] |}))
    by (vm_compute; reflexivity).
  split; [reflexivity|]. split; [exact Hinit|].
  apply (on_done_is_None_after_construction trading algo "env" spied_pool8 _ topo Hinit).
Defined.

(** ** Construction: every way it can end *)

Section Construction.

Context {Endpoint TradingEnvironment A : Type} `{!Allocator Endpoint A}.
Variable trading : Trading TradingEnvironment.

Abbreviation Built := (SimulatedTrading Endpoint TradingEnvironment A).

(** The outcome of [__init__] is decided by the two allocator calls it
    makes. *)
Lemma init_outcome algo env (a : A) :
  match lease 8 a with
  | (Raise e, a1) => __init__ trading algo env a = (Raise e, a1)
  | (Return sockets, a1) =>
      if decide (length sockets < 8)%nat
      then __init__ trading algo env a = (Raise IndexError, a1)
      else match reaquire sockets a1 with
           | (Raise e, a2) => __init__ trading algo env a = (Raise e, a2)
           | (Return _, a2) =>
               exists topo : Built,
                 __init__ trading algo env a = (Return topo, a2) /\
                 leased_sockets (leasing topo) = sockets
           end
  end.
Proof.
  unfold __init__, bind. rewrite allocate_sockets_unfold by lia. simpl.
  destruct (lease 8 a) as [[sockets|e] a1]; [|reflexivity].
  do 8 (destruct sockets as [|? sockets];
        [destruct (decide _) as [_|Hge]; [reflexivity|simpl in Hge; lia]|]).
  destruct (decide _) as [Hlt|_]; [simpl in Hlt; lia|].
  simpl. rewrite shutdown_unfold. simpl.
  destruct (reaquire _ a1) as [[[]|err] a2]; simpl; [|reflexivity].
  eexists. split; reflexivity.
Qed.

(** Construction returns an instance exactly when [lease(8)] returns at
    least eight sockets and the [reaquire] of line 167, called with all of
    them, returns. *)
Theorem construction_returns_iff algo env (a : A) :
  (exists (topo : Built) a', __init__ trading algo env a = (Return topo, a')) <->
  (exists sockets a1 a2,
     lease 8 a = (Return sockets, a1) /\
     (8 <= length sockets)%nat /\
     reaquire sockets a1 = (Return tt, a2)).
Proof.
  pose proof (init_outcome algo env a) as H.
  destruct (lease 8 a) as [[sockets|e] a1].
  - destruct (decide _) as [Hlt|Hge].
    + split.
      * intros (topo & a' & Hinit). rewrite H in Hinit. discriminate.
      * intros (s & b1 & b2 & [= <- <-] & Hlen & _). lia.
    + destruct (reaquire sockets a1) as [[[]|err] a2] eqn:Hre.
      * split; [|intros _; destruct H as (topo & Hinit & _); eauto].
        intros _. exists sockets, a1, a2. repeat split; [lia|exact Hre].
      * split.
        -- intros (topo & a' & Hinit). rewrite H in Hinit. discriminate.
        -- intros (s & b1 & b2 & [= <- <-] & _ & Hre').
           rewrite Hre in Hre'. discriminate.
  - split.
    + intros (topo & a' & Hinit). rewrite H in Hinit. discriminate.
    + intros (s & b1 & b2 & Hl & _). discriminate.
Qed.

(** When [lease(8)] raises, construction raises the same exception and the
    allocator is left as [lease] left it: nothing more is asked of it. *)
Theorem construction_propagates_lease_error algo env (a a1 : A) (e : exn) :
  lease 8 a = (Raise e, a1) ->
  __init__ trading algo env a = (Raise e, a1).
Proof.
  intros Hl. pose proof (init_outcome algo env a) as H.
  rewrite Hl in H. exact H.
Qed.

(** When [lease(8)] returns fewer than eight sockets, construction ends in
    [IndexError] at the first missing index, and the allocator is left as
    [lease] left it: the sockets it handed out are not given back. *)
Theorem construction_short_lease algo env (a a1 : A) (sockets : list Endpoint) :
  lease 8 a = (Return sockets, a1) ->
  (length sockets < 8)%nat ->
  __init__ trading algo env a = (Raise IndexError, a1).
Proof.
  intros Hl Hlen. pose proof (init_outcome algo env a) as H.
  rewrite Hl in H. destruct (decide _); [exact H|lia].
Qed.

(** When the [reaquire] of line 167 raises, construction raises the same
    exception: no instance is returned although all sockets were leased. *)
Theorem construction_propagates_reclaim_error algo env (a a1 a2 : A)
    (sockets : list Endpoint) (e : exn) :
  lease 8 a = (Return sockets, a1) ->
  (8 <= length sockets)%nat ->
  reaquire sockets a1 = (Raise e, a2) ->
  __init__ trading algo env a = (Raise e, a2).
Proof.
  intros Hl Hlen Hre. pose proof (init_outcome algo env a) as H.
  rewrite Hl in H. destruct (decide _); [lia|]. rewrite Hre in H. exact H.
Qed.

(** The attributes of a returned instance other than the sockets. *)
Lemma init_registry algo env (a a' : A) (topo : Built) :
  __init__ trading algo env a = (Return topo, a') ->
  let client := TradeSimulationClient_new trading env in
  let order := OrderDataSource_new trading in
  let txn := TransactionSimulator_new trading in
  clients topo = {[ get_id (client_component client) := client_component client ]} /\
  sources topo = {[ get_id order := order ]} /\
  transforms topo = {[ get_id txn := txn ]} /\
  components (sim topo) = [client_component client; order; txn] /\
  trading_client topo = add_event_callback Algorithm_handle_frame client /\
  algorithm topo = set_order TradeSimulationClient_order algo /\
  order_source topo = order /\ transaction_sim topo = txn /\
  trading_environment topo = env /\
  started topo = false /\ sim_context topo = None.
Proof.
  unfold __init__, bind. rewrite allocate_sockets_unfold by lia. simpl.
  destruct (lease 8 a) as [[sockets|e] a1]; [|discriminate].
  do 8 (destruct sockets as [|? sockets]; [discriminate|]).
  simpl. rewrite shutdown_unfold. simpl.
  destruct (reaquire _ a1) as [[[]|err] a2]; [|discriminate].
  simpl. intros [= <- <-]. simpl. repeat split; reflexivity.
Qed.

(** What a returned instance holds besides the sockets: each of the three
    mappings has exactly the one fixed component of its kind, the simulator
    was handed the three in the order client, order source, transaction
    simulator, the client has the algorithm's [handle_frame] as its last
    event callback, the algorithm has the client's [order], and the instance
    is not started and has no run context. *)
Theorem construction_registers_fixed_components algo env (a a' : A) (topo : Built) :
  __init__ trading algo env a = (Return topo, a') ->
  let client := TradeSimulationClient_new trading env in
  let order := OrderDataSource_new trading in
  let txn := TransactionSimulator_new trading in
  clients topo = {[ get_id (client_component client) := client_component client ]} /\
  sources topo = {[ get_id order := order ]} /\
  transforms topo = {[ get_id txn := txn ]} /\
  components (sim topo) = [client_component client; order; txn] /\
  trading_client topo = add_event_callback Algorithm_handle_frame client /\
  algorithm topo = set_order TradeSimulationClient_order algo /\
  order_source topo = order /\ transaction_sim topo = txn /\
  trading_environment topo = env /\
  started topo = false /\ sim_context topo = None.
Proof. apply init_registry. Qed.

End Construction.

(** ** Leasing and giving back *)

Local Open Scope list_scope.

Section LeasingFacts.

Context {Endpoint TradingEnvironment A : Type} `{!Allocator Endpoint A}.
Variable trading : Trading TradingEnvironment.

(** [allocate_sockets(n)] with [n <= 0] stops at its assertion: the allocator
    is not called and nothing is tracked. *)
Theorem allocate_sockets_rejects_nonpositive (n : Z) (l : Leasing Endpoint A) :
  (n <= 0)%Z -> allocate_sockets n l = (Raise AssertionError, l).
Proof. apply allocate_sockets_nonpositive. Qed.

Lemma allocate_sockets_leased (n : Z) (l : Leasing Endpoint A) :
  match allocate_sockets n l with
  | (Return leased, l') => leased_sockets l' = leased_sockets l ++ leased
  | (Raise _, l') => leased_sockets l' = leased_sockets l
  end.
Proof.
  destruct (decide (n > 0)%Z) as [Hn|Hn].
  - rewrite allocate_sockets_unfold by exact Hn.
    destruct (lease n (allocator l)) as [[leased|e] a]; reflexivity.
  - rewrite allocate_sockets_nonpositive by lia. reflexivity.
Qed.

(** [allocate_sockets] tracks exactly what it returns: when it returns a
    list, that list is appended to [leased_sockets]; when it raises, be it
    its own assertion or the allocator's exception, [leased_sockets] is as
    before. *)
Theorem allocate_sockets_tracks_what_it_returns (n : Z) (l : Leasing Endpoint A) :
  match allocate_sockets n l with
  | (Return leased, l') => leased_sockets l' = leased_sockets l ++ leased
  | (Raise _, l') => leased_sockets l' = leased_sockets l
  end.
Proof. apply allocate_sockets_leased. Qed.

(** Sockets leased by a later [allocate_sockets] join the ones leased
    before: the next [shutdown()] hands the allocator the old list followed by
    the new sockets, in one [reaquire] call. *)
Theorem shutdown_after_allocation (n : Z) (l l1 : Leasing Endpoint A)
    (leased : list Endpoint) :
  allocate_sockets n l = (Return leased, l1) ->
  shutdown l1 =
    match reaquire (leased_sockets l ++ leased) (allocator l1) with
    | (Return _, a) => (Return VNone, set_allocator a l1)
    | (Raise e, a) => (Raise e, set_allocator a l1)
    end.
Proof.
  intros Halloc. rewrite shutdown_unfold.
  pose proof (allocate_sockets_leased n l) as H.
  rewrite Halloc in H. rewrite H. reflexivity.
Qed.

(** Seen from a spy around any allocator: construction calls [lease] once,
    with 8, and then [reaquire] once, with exactly the list [lease] returned,
    when that list has at least eight sockets; otherwise [lease(8)] is the
    only call. *)
Theorem construction_call_trace algo env (a : A)
    (cs : list (allocator_call Endpoint)) :
  calls (__init__ trading algo env {| spied := a; calls := cs |}).2 =
    cs ++ Lease 8 ::
      match lease 8 a with
      | (Return sockets, _) =>
          if decide (length sockets < 8)%nat then [] else [Reaquire sockets]
      | (Raise _, _) => []
      end.
Proof.
  pose proof (init_outcome trading algo env {| spied := a; calls := cs |}) as H.
  simpl in H. unfold spy_lease in H. simpl in H.
  destruct (lease 8 a) as [[sockets|e] a1].
  - destruct (decide _) as [Hlt|Hge].
    + rewrite H. reflexivity.
    + unfold spy_reaquire in H. simpl in H.
      destruct (reaquire sockets a1) as [[[]|err] a2].
      * destruct H as (topo & -> & _). simpl.
        rewrite <- app_assoc. reflexivity.
      * rewrite H. simpl. rewrite <- app_assoc. reflexivity.
  - rewrite H. simpl. reflexivity.
Qed.

(** One [shutdown()] is one more [reaquire] request, for the whole list of
    leased sockets, whatever the allocator answers. *)
Lemma shutdown_spied (l : Leasing Endpoint (Spy Endpoint A)) :
  reclaimed (allocator (shutdown l).2)
    = reclaimed (allocator l) ++ [leased_sockets l] /\
  leased_sockets (shutdown l).2 = leased_sockets l.
Proof.
  rewrite shutdown_unfold. simpl. unfold spy_reaquire.
  destruct (reaquire (leased_sockets l) (spied (allocator l))) as [[u|e] a'];
    simpl; unfold reclaimed; simpl; rewrite omap_app; split; reflexivity.
Qed.

(** [k] calls of [shutdown()] in succession are [k] [reaquire] requests, each
    for the same list, the whole of [leased_sockets], which none of the calls
    changes. *)
Theorem shutdown_times_reclaims_each_time (k : nat)
    (l : Leasing Endpoint (Spy Endpoint A)) :
  reclaimed (allocator (shutdown_times k l))
    = reclaimed (allocator l) ++ replicate k (leased_sockets l) /\
  leased_sockets (shutdown_times k l) = leased_sockets l.
Proof.
  induction k as [|k [IHr IHl]]; simpl.
  - rewrite app_nil_r. split; reflexivity.
  - destruct (shutdown_spied (shutdown_times k l)) as [Hr Hl].
    unfold shutdown_times in *. simpl. rewrite Hr, Hl, IHr, IHl.
    split; [|reflexivity].
    rewrite <- app_assoc. f_equal.
    symmetry. apply replicate_cons_app.
Qed.

End LeasingFacts.

(** ** Registration *)

Section Registration.

Context {Endpoint TradingEnvironment A : Type} `{!Allocator Endpoint A}.

Abbreviation Obj := (SimulatedTrading Endpoint TradingEnvironment A).

(** The instance after [add_source]: untouched, or, when the instance is not
    started and the argument is a data source, with the source registered. *)
Lemma add_source_state (c : Component) (self : Obj) :
  (add_source c self).2 = self \/
  (started self = false /\ isinstance c DataSource = true /\
   (add_source c self).2 =
     set_sources (<[get_id c := c]> (sources self))
       (set_sim (register_components [c] (sim self)) self)).
Proof.
  destruct (isinstance c DataSource) eqn:Hk.
  - destruct (started self) eqn:Hs.
    + left. unfold add_source, bind, assert. rewrite Hk. simpl.
      rewrite check_started_running by exact Hs. reflexivity.
    + right. rewrite add_source_building by assumption. auto.
  - left. unfold add_source, bind, assert. rewrite Hk. reflexivity.
Qed.

Lemma add_transform_state (c : Component) (self : Obj) :
  (add_transform c self).2 = self \/
  (started self = false /\ isinstance c BaseTransform = true /\
   (add_transform c self).2 =
     set_sources (<[get_id c := c]> (sources self))
       (set_sim (register_components [c] (sim self)) self)).
Proof.
  destruct (isinstance c BaseTransform) eqn:Hk.
  - destruct (started self) eqn:Hs.
    + left. unfold add_transform, bind, assert. rewrite Hk. simpl.
      rewrite check_started_running by exact Hs. reflexivity.
    + right. rewrite add_transform_building by assumption. auto.
  - left. unfold add_transform, bind, assert. rewrite Hk. reflexivity.
Qed.

Lemma check_started_state (self : Obj) : (check_started self).2 = self.
Proof.
  destruct (started self) eqn:Hs.
  - rewrite check_started_running by exact Hs. reflexivity.
  - rewrite check_started_building by exact Hs. reflexivity.
Qed.

Lemma on_leasing_state {T} (m : M (Leasing Endpoint A) T) (self : Obj) :
  (on_leasing m self).2 = set_leasing (m (leasing self)).2 self.
Proof. unfold on_leasing. destruct (m (leasing self)). reflexivity. Qed.

(** The class assertion comes first: a component of the wrong class is
    turned away with [AssertionError] and nothing changes, on a started
    instance as on a fresh one. *)
Theorem registration_asserts_class_first (self : Obj) (c : Component) :
  (isinstance c DataSource = false ->
   add_source c self = (Raise AssertionError, self)) /\
  (isinstance c BaseTransform = false ->
   add_transform c self = (Raise AssertionError, self)).
Proof.
  split; intros Hk.
  - unfold add_source, bind, assert. rewrite Hk. reflexivity.
  - unfold add_transform, bind, assert. rewrite Hk. reflexivity.
Qed.

(** No call of [add_source], [add_transform] or [check_started] ends in
    [ZiplineException]: the only [raise] of the module cannot build its
    exception. *)
Theorem ZiplineException_is_never_raised (self : Obj) (c : Component) :
  (add_source c self).1 <> Raise ZiplineException /\
  (add_transform c self).1 <> Raise ZiplineException /\
  (check_started self).1 <> Raise ZiplineException.
Proof.
  repeat split.
  - unfold add_source, bind, assert.
    destruct (isinstance c DataSource); simpl; [|discriminate].
    destruct (started self) eqn:Hs.
    + rewrite check_started_running by exact Hs. discriminate.
    + rewrite check_started_building by exact Hs. discriminate.
  - unfold add_transform, bind, assert.
    destruct (isinstance c BaseTransform); simpl; [|discriminate].
    destruct (started self) eqn:Hs.
    + rewrite check_started_running by exact Hs. discriminate.
    + rewrite check_started_building by exact Hs. discriminate.
  - destruct (started self) eqn:Hs.
    + rewrite check_started_running by exact Hs. discriminate.
    + rewrite check_started_building by exact Hs. discriminate.
Qed.

(** A successful [add_source] touches one entry only: every other identity
    maps to what it mapped to, the registered identities are the old ones
    and the new one, the simulator got the source as its last component, and
    the transforms and clients mappings are as before. *)
Theorem add_source_keeps_other_entries (self : Obj) (c : Component) :
  started self = false ->
  isinstance c DataSource = true ->
  let self' := (add_source c self).2 in
  (forall k, k <> get_id c -> sources self' !! k = sources self !! k) /\
  dom (sources self') = {[ get_id c ]} ∪ dom (sources self) /\
  components (sim self') = components (sim self) ++ [c] /\
  transforms self' = transforms self /\
  clients self' = clients self.
Proof.
  intros Hs Hk. rewrite add_source_building by assumption. simpl.
  repeat split.
  - intros k Hne. apply lookup_insert_ne. congruence.
  - apply dom_insert_L.
Qed.

(** Sources of different identities can be registered in either order: the
    sources mapping comes out the same. *)
Theorem add_source_order_irrelevant (self : Obj) (c1 c2 : Component) :
  started self = false ->
  isinstance c1 DataSource = true ->
  isinstance c2 DataSource = true ->
  get_id c1 <> get_id c2 ->
  sources (add_source c2 (add_source c1 self).2).2
    = sources (add_source c1 (add_source c2 self).2).2.
Proof.
  intros Hs H1 H2 Hne.
  rewrite (add_source_building self c1) by assumption.
  rewrite (add_source_building self c2) by assumption.
  rewrite !add_source_building by assumption. simpl.
  apply insert_insert_ne. congruence.
Qed.

(** [shutdown()] ends nothing: an instance that is not started is still not
    started after it, a source can still be registered and [simulate] still
    starts it. *)
Theorem shutdown_keeps_building (self : Obj) (c : Component) :
  started self = false ->
  isinstance c DataSource = true ->
  let self' := (on_leasing shutdown self).2 in
  started self' = false /\
  (exists self'', add_source c self' = (Return VNone, self'') /\
                  sources self'' !! get_id c = Some c) /\
  started (simulate false self').2 = true.
Proof.
  intros Hs Hk. simpl. rewrite on_leasing_state.
  split; [exact Hs|]. split.
  - eexists. split; [apply add_source_building; assumption|].
    simpl. apply lookup_insert_eq.
  - reflexivity.
Qed.

End Registration.

(** ** Invariants over any sequence of calls *)

Section Sequences.

Context {Endpoint TradingEnvironment A : Type} `{!Allocator Endpoint A}.
Variable trading : Trading TradingEnvironment.

Abbreviation Inst := (SimulatedTrading Endpoint TradingEnvironment A).

Lemma perform_fixed (c : call) (self : Inst) :
  fixed_attributes (perform c self) = fixed_attributes self.
Proof.
  destruct c as [s|t| | |n|b| |]; simpl.
  - destruct (add_source_state s self) as [->|(_ & _ & ->)]; reflexivity.
  - destruct (add_transform_state t self) as [->|(_ & _ & ->)]; reflexivity.
  - rewrite check_started_state. reflexivity.
  - reflexivity.
  - rewrite on_leasing_state. reflexivity.
  - rewrite simulate_unfold. reflexivity.
  - rewrite on_leasing_state. reflexivity.
  - reflexivity.
Qed.

Lemma perform_all_cons (c : call) (cs : list call) (self : Inst) :
  perform_all (c :: cs) self = perform_all cs (perform c self).
Proof. reflexivity. Qed.

Lemma perform_all_fixed (cs : list call) (self : Inst) :
  fixed_attributes (perform_all cs self) = fixed_attributes self.
Proof.
  revert self. induction cs as [|c cs IH]; intros self.
  - reflexivity.
  - rewrite perform_all_cons, IH. apply perform_fixed.
Qed.

Lemma perform_started (c : call) (self : Inst) :
  started (perform c self) = started self || is_simulate c.
Proof.
  destruct c as [s|t| | |n|b| |]; simpl; rewrite ?orb_false_r.
  - destruct (add_source_state s self) as [->|(_ & _ & ->)]; reflexivity.
  - destruct (add_transform_state t self) as [->|(_ & _ & ->)]; reflexivity.
  - rewrite check_started_state. reflexivity.
  - reflexivity.
  - rewrite on_leasing_state. reflexivity.
  - rewrite simulate_unfold. simpl. rewrite orb_true_r. reflexivity.
  - rewrite on_leasing_state. reflexivity.
  - reflexivity.
Qed.

Lemma perform_all_started (cs : list call) (self : Inst) :
  started (perform_all cs self) = started self || existsb is_simulate cs.
Proof.
  revert self. induction cs as [|c cs IH]; intros self.
  - simpl. rewrite orb_false_r. reflexivity.
  - rewrite perform_all_cons, IH, perform_started. simpl.
    rewrite orb_assoc. reflexivity.
Qed.

Lemma perform_leased (c : call) (self : Inst) :
  leased_sockets (leasing self) `prefix_of` leased_sockets (leasing (perform c self)).
Proof.
  destruct c as [s|t| | |n|b| |]; simpl.
  - destruct (add_source_state s self) as [->|(_ & _ & ->)]; reflexivity.
  - destruct (add_transform_state t self) as [->|(_ & _ & ->)]; reflexivity.
  - rewrite check_started_state. reflexivity.
  - reflexivity.
  - rewrite on_leasing_state. simpl.
    pose proof (allocate_sockets_leased n (leasing self)) as H.
    destruct (allocate_sockets n (leasing self)) as [[leased|e] l']; simpl;
      rewrite H; [apply prefix_app_r|]; reflexivity.
  - rewrite simulate_unfold. reflexivity.
  - rewrite on_leasing_state. simpl. rewrite shutdown_unfold.
    destruct (reaquire _ _) as [[u|e] a']; reflexivity.
  - reflexivity.
Qed.

Lemma perform_registry_started (c : call) (self : Inst) :
  started self = true ->
  sources (perform c self) = sources self /\
  components (sim (perform c self)) = components (sim self).
Proof.
  intros Hs. destruct c as [s|t| | |n|b| |]; simpl.
  - destruct (add_source_state s self) as [->|(Hf & _)]; [split; reflexivity|].
    congruence.
  - destruct (add_transform_state t self) as [->|(Hf & _)]; [split; reflexivity|].
    congruence.
  - rewrite check_started_state. split; reflexivity.
  - split; reflexivity.
  - rewrite on_leasing_state. split; reflexivity.
  - rewrite simulate_unfold. split; reflexivity.
  - rewrite on_leasing_state. split; reflexivity.
  - split; reflexivity.
Qed.

Lemma perform_registry_grows (c : call) (self : Inst) :
  dom (sources self) ⊆ dom (sources (perform c self)) /\
  components (sim self) `prefix_of` components (sim (perform c self)).
Proof.
  destruct c as [s|t| | |n|b| |]; simpl.
  - destruct (add_source_state s self) as [->|(_ & _ & ->)]; [split; reflexivity|].
    simpl. split; [rewrite dom_insert_L; set_solver|apply prefix_app_r; reflexivity].
  - destruct (add_transform_state t self) as [->|(_ & _ & ->)]; [split; reflexivity|].
    simpl. split; [rewrite dom_insert_L; set_solver|apply prefix_app_r; reflexivity].
  - rewrite check_started_state. split; reflexivity.
  - split; reflexivity.
  - rewrite on_leasing_state. split; reflexivity.
  - rewrite simulate_unfold. split; reflexivity.
  - rewrite on_leasing_state. split; reflexivity.
  - split; reflexivity.
Qed.

Lemma perform_leasing (c : call) (self : Inst) :
  calls_allocator c = false -> leasing (perform c self) = leasing self.
Proof.
  destruct c as [s|t| | |n|b| |]; simpl; try discriminate; intros _.
  - destruct (add_source_state s self) as [->|(_ & _ & ->)]; reflexivity.
  - destruct (add_transform_state t self) as [->|(_ & _ & ->)]; reflexivity.
  - rewrite check_started_state. reflexivity.
  - reflexivity.
  - rewrite simulate_unfold. reflexivity.
  - reflexivity.
Qed.

(** Whatever is called on an instance, in whatever order and with whatever
    outcome, the role-to-endpoint map, the controller, the simulator's
    [on_done], and the clients and transforms mappings stay what they
    were: no method assigns them. *)
Theorem fixed_attributes_never_change (cs : list call) (self : Inst) :
  let self' := perform_all cs self in
  addresses (sim self') = addresses (sim self) /\
  controller (sim self') = controller (sim self) /\
  con self' = con self /\
  on_done (sim self') = on_done (sim self) /\
  clients self' = clients self /\
  transforms self' = transforms self.
Proof.
  pose proof (perform_all_fixed cs self) as H. unfold fixed_attributes in H.
  cbv zeta. injection H; intros. repeat split; assumption.
Qed.

(** [started] after a sequence of calls: it is set when it was set before or
    when one of the calls was [simulate]; no call clears it and no other call
    sets it. *)
Theorem started_after_calls (cs : list call) (self : Inst) :
  started (perform_all cs self) = started self || existsb is_simulate cs.
Proof. apply perform_all_started. Qed.

(** The list of leased sockets only grows: after any sequence of calls it
    starts with what it was before.  No call, [shutdown()] included, takes a
    socket off it. *)
Theorem leased_sockets_only_grow (cs : list call) (self : Inst) :
  leased_sockets (leasing self)
    `prefix_of` leased_sockets (leasing (perform_all cs self)).
Proof.
  revert self. induction cs as [|c cs IH]; intros self.
  - reflexivity.
  - rewrite perform_all_cons.
    etransitivity; [apply (perform_leased c)|apply IH].
Qed.

(** Only [allocate_sockets] and [shutdown] reach the allocator: a sequence of
    calls without them leaves the allocator and the leased sockets as they
    were.  In particular [simulate], blocking or not, gives nothing back. *)
Theorem allocator_untouched_by_other_calls (cs : list call) (self : Inst) :
  existsb calls_allocator cs = false ->
  leasing (perform_all cs self) = leasing self.
Proof.
  revert self. induction cs as [|c cs IH]; intros self Hcs.
  - reflexivity.
  - simpl in Hcs. apply orb_false_elim in Hcs as [Hc Hcs].
    rewrite perform_all_cons, IH by exact Hcs.
    apply perform_leasing. exact Hc.
Qed.

(** Once the instance is started the registry is frozen: no sequence of
    calls changes the sources mapping or the components handed to the
    simulator. *)
Theorem registry_frozen_once_started (cs : list call) (self : Inst) :
  started self = true ->
  sources (perform_all cs self) = sources self /\
  components (sim (perform_all cs self)) = components (sim self).
Proof.
  revert self. induction cs as [|c cs IH]; intros self Hs.
  - split; reflexivity.
  - rewrite perform_all_cons.
    destruct (perform_registry_started c self Hs) as [Hsrc Hcomp].
    assert (Hs' : started (perform c self) = true)
      by (rewrite perform_started, Hs; reflexivity).
    destruct (IH (perform c self) Hs') as [-> ->]. split; assumption.
Qed.

(** Registration only adds: after any sequence of calls every identity that
    was in the sources mapping is still in it, and the simulator's list of
    components starts with what it was before. *)
Theorem registered_identities_never_disappear (cs : list call) (self : Inst) :
  dom (sources self) ⊆ dom (sources (perform_all cs self)) /\
  components (sim self) `prefix_of` components (sim (perform_all cs self)).
Proof.
  revert self. induction cs as [|c cs IH]; intros self.
  - split; reflexivity.
  - rewrite perform_all_cons.
    destruct (perform_registry_grows c self) as [Hd Hp].
    destruct (IH (perform c self)) as [Hd' Hp'].
    split; etransitivity; eassumption.
Qed.

(** A constructed instance never gets a completion handler and never gets a
    second transform: after construction and any sequence of calls, the
    simulator's [on_done] is [None] and the transforms mapping holds the
    transaction simulator alone -- whatever was passed to [add_transform]. *)
Theorem constructed_instance_stays_unwired algo env (a a' : A) (topo : Inst)
    (cs : list call) :
  __init__ trading algo env a = (Return topo, a') ->
  on_done (sim (perform_all cs topo)) = VNone /\
  transforms (perform_all cs topo)
    = {[ get_id (TransactionSimulator_new trading) := TransactionSimulator_new trading ]}.
Proof.
  intros Hinit.
  pose proof (perform_all_fixed cs topo) as H. unfold fixed_attributes in H.
  assert (Hdone : on_done (sim (perform_all cs topo)) = on_done (sim topo))
    by (injection H; intros; assumption).
  assert (Htr : transforms (perform_all cs topo) = transforms topo)
    by (injection H; intros; assumption).
  rewrite Hdone, Htr.
  destruct (init_returns trading algo env a a' topo Hinit)
    as (s0 & s1 & s2 & s3 & s4 & s5 & s6 & s7 & rest & a1 & Hr).
  simpl in Hr. destruct Hr as (_ & _ & _ & _ & _ & _ & Hnone & _).
  destruct (init_registry trading algo env a a' topo Hinit)
    as (_ & _ & Htrans & _).
  split; assumption.
Qed.

End Sequences.

(** ** The further properties on the concrete world *)

(** A pool of seven: [lease(8)] raises [ExhaustionError], and so does
    construction; the pool is as it was. *)
Lemma construction_propagates_lease_error_witness :
  lease 8 pool7 = (Raise ExhaustionError, pool7) /\
  __init__ trading algo "env" pool7 = (Raise ExhaustionError, pool7).
Proof.
  assert (Hl : lease 8 pool7 = (Raise ExhaustionError, pool7)) by reflexivity.
  split; [exact Hl|].
  apply (construction_propagates_lease_error trading algo "env" pool7 pool7 _ Hl).
Defined.

(** A stub that leases three sockets: construction ends in [IndexError]
    after the one [lease] call. *)
Lemma construction_short_lease_witness :
  __init__ trading algo "env" short_stub
    = (Raise IndexError,
       {| spied := spied short_stub; calls := [Lease 8] |}).
Proof.
  assert (Hl : lease 8 short_stub
               = (Return [10000; 10001; 10002]%N,
                  {| spied := spied short_stub; calls := [Lease 8] |}))
    by reflexivity.
  assert (Hlen : (length [10000; 10001; 10002]%N < 8)%nat) by (simpl; lia).
  apply (construction_short_lease trading algo "env" short_stub _ _ Hl Hlen).
Defined.

(** A stub that refuses to take sockets back: construction ends in its
    [NotLeasedError]. *)
Lemma construction_propagates_reclaim_error_witness :
  __init__ trading algo "env" refusing_stub
    = (Raise NotLeasedError,
       {| spied := spied refusing_stub;
          calls := [Lease 8; Reaquire ports] |}).
Proof.
  assert (Hl : lease 8 refusing_stub
               = (Return ports,
                  {| spied := spied refusing_stub; calls := [Lease 8] |}))
    by reflexivity.
  assert (Hlen : (8 <= length ports)%nat) by (simpl; lia).
  assert (Hre : reaquire ports {| spied := spied refusing_stub; calls := [Lease 8] |}
                = (Raise NotLeasedError,
                   {| spied := spied refusing_stub;
                      calls := [Lease 8; Reaquire ports] |}))
    by reflexivity.
  apply (construction_propagates_reclaim_error trading algo "env"
           refusing_stub _ _ ports NotLeasedError Hl Hlen Hre).
Defined.

(** The instance built on a stub that leases ten sockets. *)
Lemma construction_registers_fixed_components_witness :
  exists topo' a',
    __init__ trading algo "env" generous_stub = (Return topo', a') /\
    sources topo' = {[ "OrderDataSource" := OrderDataSource_new trading ]} /\
    transforms topo' = {[ "TransactionSimulator" := TransactionSimulator_new trading ]} /\
    event_callbacks (trading_client topo') = [Algorithm_handle_frame] /\
    algorithm_order (algorithm topo') = Some TradeSimulationClient_order.
Proof.
  eexists _, _.
  assert (Hinit : __init__ trading algo "env" generous_stub
                  = (Return (from_return (__init__ trading algo "env" generous_stub).1),
                     (__init__ trading algo "env" generous_stub).2))
    by (vm_compute; reflexivity).
  split; [exact Hinit|].
  destruct (construction_registers_fixed_components trading algo "env"
              generous_stub _ _ Hinit)
    as (_ & Hsrc & Htr & _ & Hclient & Halgo & _).
  rewrite Hsrc, Htr, Hclient, Halgo. repeat split; reflexivity.
Defined.

(** [allocate_sockets(0)] on the instance's leasing attributes. *)
Lemma allocate_sockets_rejects_nonpositive_witness :
  allocate_sockets 0 (leasing topo) = (Raise AssertionError, leasing topo).
Proof.
  apply (allocate_sockets_rejects_nonpositive 0 (leasing topo)). lia.
Defined.

(** Three more sockets leased from a pool of eight, after an empty list:
    [shutdown()] gives back exactly these three. *)
Lemma shutdown_after_allocation_witness :
  exists l1 l2,
    allocate_sockets 3 {| allocator := spied_pool8; leased_sockets := [] |}
      = (Return [10000; 10001; 10002]%N, l1) /\
    shutdown l1 = (Return VNone, l2) /\
    reclaimed (allocator l2) = [[10000; 10001; 10002]%N].
Proof.
  eexists _, _.
  assert (Ha : allocate_sockets 3 {| allocator := spied_pool8; leased_sockets := [] |}
               = (Return [10000; 10001; 10002]%N,
                  (allocate_sockets 3
                     {| allocator := spied_pool8; leased_sockets := [] |}).2))
    by (vm_compute; reflexivity).
  split; [exact Ha|].
  rewrite (shutdown_after_allocation 3 _ _ _ Ha).
  split; vm_compute; reflexivity.
Defined.

(** A client passed to [add_source] and to [add_transform] on the started
    instance: [AssertionError], not the error of a started instance. *)
Lemma registration_asserts_class_first_witness :
  started running = true /\
  add_source bystander running = (Raise AssertionError, running) /\
  add_transform bystander running = (Raise AssertionError, running).
Proof.
  split; [reflexivity|].
  destruct (registration_asserts_class_first running bystander) as [Hs Ht].
  split; [apply Hs|apply Ht]; reflexivity.
Defined.

(** [quotes] registered on the fresh instance: the order source is still
    there. *)
Lemma add_source_keeps_other_entries_witness :
  sources (add_source quotes topo).2 !! "OrderDataSource"
    = Some (OrderDataSource_new trading) /\
  components (sim (add_source quotes topo).2) = components (sim topo) ++ [quotes].
Proof.
  assert (Hs : started topo = false) by reflexivity.
  assert (Hk : isinstance quotes DataSource = true) by reflexivity.
  destruct (add_source_keeps_other_entries topo quotes Hs Hk)
    as (Hother & _ & Hcomp & _).
  split; [|exact Hcomp].
  rewrite Hother by discriminate. vm_compute. reflexivity.
Defined.

(** [feed1] and [quotes] in both orders. *)
Lemma add_source_order_irrelevant_witness :
  sources (add_source quotes (add_source feed1 topo).2).2
    = sources (add_source feed1 (add_source quotes topo).2).2.
Proof.
  apply (add_source_order_irrelevant topo feed1 quotes);
    [reflexivity|reflexivity|reflexivity|discriminate].
Defined.

(** [shutdown()] on the fresh instance, then [add_source(feed1)]. *)
Lemma shutdown_keeps_building_witness :
  started (on_leasing shutdown topo).2 = false /\
  exists self'',
    add_source feed1 (on_leasing shutdown topo).2 = (Return VNone, self'') /\
    sources self'' !! "feed" = Some feed1.
Proof.
  assert (Hs : started topo = false) by reflexivity.
  assert (Hk : isinstance feed1 DataSource = true) by reflexivity.
  destruct (shutdown_keeps_building topo feed1 Hs Hk) as (H1 & H2 & _).
  split; [exact H1|exact H2].
Defined.

(** Registration, a blocking run and a read: the allocator saw nothing. *)
Lemma allocator_untouched_by_other_calls_witness :
  leasing (perform_all [Call_add_source feed1; Call_simulate true;
                        Call_get_positions] topo)
    = leasing topo.
Proof.
  apply (allocator_untouched_by_other_calls
           [Call_add_source feed1; Call_simulate true; Call_get_positions] topo).
  reflexivity.
Defined.

(** On the started instance, registrations and a shutdown leave the registry
    alone. *)
Lemma registry_frozen_once_started_witness :
  sources (perform_all [Call_add_source feed1; Call_add_transform moving_average;
                        Call_shutdown] running)
    = sources running.
Proof.
  assert (Hs : started running = true) by reflexivity.
  apply (registry_frozen_once_started
           [Call_add_source feed1; Call_add_transform moving_average;
            Call_shutdown] running Hs).
Defined.

(** The instance built on the pool of eight, after a transform was added, a
    blocking run and a shutdown. *)
Lemma constructed_instance_stays_unwired_witness :
  on_done (sim (perform_all [Call_add_transform moving_average;
                             Call_simulate true; Call_shutdown] topo)) = VNone /\
  transforms (perform_all [Call_add_transform moving_average;
                           Call_simulate true; Call_shutdown] topo) !! "MovingAverage"
    = None.
Proof.
  assert (Hinit : __init__ trading algo "env" spied_pool8 = (Return topo, built.2))
    by (vm_compute; reflexivity).
  destruct (constructed_instance_stays_unwired trading algo "env" spied_pool8 _ topo
              [Call_add_transform moving_average; Call_simulate true; Call_shutdown]
              Hinit) as [Hdone Htr].
  split; [exact Hdone|]. rewrite Htr. vm_compute. reflexivity.
Defined.
